(** * The signal-input JIT transform of the Angular compiler CLI

    A shallow embedding of
    [packages/compiler-cli/src/transformers/jit_transforms/initializer_api_transforms/input_function.ts]
    and the properties of [signalInputsTransform] stated by its
    specification.

    Layout:
    - [ts]: the fragment of the TypeScript syntax tree the transform reads
      and builds, and the [ts.*] helpers it calls;
    - [factory]: the [ts.NodeFactory] operations the transform calls;
    - the reflection types of ngtsc ([Decorator], [ReflectionHost],
      [InputMapping]) and the import manager;
    - [signalInputsTransform] itself, line by line;
    - the theorems. *)

From stdpp Require Import gmap strings list pretty.

Local Open Scope string_scope.
Set Warnings "-register-all,-clear-no-such-hyp".

(** ** Completions

    A JavaScript call either returns a value or throws.  The source has no
    [try]/[catch], so whatever a collaborator throws leaves the transform. *)

Inductive Completion (A : Type) : Type :=
| Normal (value : A)
| Throw (error : string).

Arguments Normal {A} value.
Arguments Throw {A} error.

(** ** TypeScript syntax *)

Module ts.

Inductive SyntaxKind : Set :=
| AnyKeyword
| UnknownKeyword
| StringKeyword
| PublicKeyword
| PrivateKeyword
| ProtectedKeyword
| ReadonlyKeyword
| StaticKeyword
| OverrideKeyword.

(** An identifier node.  [original] is the node's [original] pointer: it
    is absent on a node that was parsed or freshly synthesized, and set by
    [setOriginalNode]. *)
Inductive Identifier : Set :=
  mkIdentifier { idText : string; original : option Identifier }.

Inductive TypeNode : Set :=
| KeywordTypeNode (kind : SyntaxKind)
| TypeReferenceNode (typeName : Identifier) (typeArguments : list TypeNode).

Inductive Expression : Set :=
| TrueLiteral
| FalseLiteral
| NullLiteral
| StringLiteral (text : string)
| NumericLiteral (text : string)
| Ident (id : Identifier)
| PropertyAccessExpression (expression : Expression) (name : Identifier)
| CallExpression (expression : Expression)
                 (typeArguments : option (list TypeNode))
                 (arguments : list Expression)
| AsExpression (expression : Expression) (type : TypeNode)
| ObjectLiteralExpression (properties : list ObjectLiteralElementLike)
with PropertyName : Set :=
| IdentifierName (id : Identifier)
| StringLiteralName (text : string)
| NumericLiteralName (text : string)
| PrivateIdentifier (text : string)
| ComputedPropertyName (expression : Expression)
with ObjectLiteralElementLike : Set :=
| PropertyAssignment (name : PropertyName) (initializer : Expression)
| ShorthandPropertyAssignment (name : Identifier)
| SpreadAssignment (expression : Expression).

(** A decorator node, [@expression]. *)
Record Decorator : Set := mkDecorator { expression : Expression }.

Inductive ModifierLike : Set :=
| Modifier (kind : SyntaxKind)
| DecoratorModifier (decorator : Decorator).

Inductive QuestionToken : Set := QuestionTokenNode.

Inductive ExclamationToken : Set := ExclamationTokenNode.

(** What the factory takes in the slot after the name of a property
    declaration: the [?] of an optional property or the [!] of a definite
    assignment assertion. *)
Inductive QuestionOrExclamationToken : Set :=
| Question (token : QuestionToken)
| Exclamation (token : ExclamationToken).

(** A class field, with the children of TypeScript's [PropertyDeclaration]
    node; all but the [name] may be [undefined]. *)
Record PropertyDeclaration : Set := mkPropertyDeclaration {
  modifiers : option (list ModifierLike);
  name : PropertyName;
  questionToken : option QuestionToken;
  exclamationToken : option ExclamationToken;
  type : option TypeNode;
  initializer : option Expression
}.

(** [name.text]: the property read the source performs on the member's
    name.  Identifiers, literals and private identifiers carry a [text];
    a computed property name has no such property and the read gives
    [undefined]. *)
Definition text (n : PropertyName) : option string :=
  match n with
  | IdentifierName id => Some (idText id)
  | StringLiteralName s => Some s
  | NumericLiteralName s => Some s
  | PrivateIdentifier s => Some s
  | ComputedPropertyName _ => None
  end.

(** [ts.setOriginalNode(node, original)], on identifiers. *)
Definition setOriginalNode (node original' : Identifier) : Identifier :=
  {| idText := idText node; original := Some original' |}.

End ts.

(** ** The node factory

    The [factory] argument of the transform is TypeScript's node factory;
    each operation builds the node of its name.  A name given as a string is
    turned into an identifier, as the factory does. *)

Module factory.
Import ts.

Definition createTrue : Expression := TrueLiteral.
Definition createFalse : Expression := FalseLiteral.
Definition createStringLiteral (text : string) : Expression :=
  StringLiteral text.
Definition createIdentifier (text : string) : Identifier :=
  {| idText := text; original := None |}.
Definition createKeywordTypeNode (kind : SyntaxKind) : TypeNode :=
  KeywordTypeNode kind.
Definition createAsExpression (e : Expression) (t : TypeNode) : Expression :=
  AsExpression e t.
Definition createPropertyAssignment (name : string) (value : Expression)
  : ObjectLiteralElementLike :=
  PropertyAssignment (IdentifierName (createIdentifier name)) value.
Definition createObjectLiteralExpression
    (properties : list ObjectLiteralElementLike) : Expression :=
  ObjectLiteralExpression properties.
Definition createPropertyAccessExpression (e : Expression) (name : Identifier)
  : Expression :=
  PropertyAccessExpression e name.
Definition createCallExpression (e : Expression)
    (typeArguments : option (list TypeNode)) (arguments : list Expression)
  : Expression :=
  CallExpression e typeArguments arguments.
Definition createDecorator (e : Expression) : Decorator :=
  {| expression := e |}.

(** The updated declaration has the children it is given.  The token
    after the name goes to [questionToken] when it is a question token and
    to [exclamationToken] when it is an exclamation token; the other of the
    two is left [undefined], and both are when no token is given. *)
Definition updatePropertyDeclaration (node : PropertyDeclaration)
    (modifiers : option (list ModifierLike)) (name : PropertyName)
    (questionOrExclamationToken : option QuestionOrExclamationToken)
    (type : option TypeNode)
    (initializer : option Expression) : PropertyDeclaration :=
  {| ts.modifiers := modifiers;
     ts.name := name;
     ts.questionToken :=
       match questionOrExclamationToken with
       | Some (Question token) => Some token
       | _ => None
       end;
     ts.exclamationToken :=
       match questionOrExclamationToken with
       | Some (Exclamation token) => Some token
       | _ => None
       end;
     ts.type := type;
     ts.initializer := initializer |}.

End factory.

(** ** Reflection types of ngtsc

    The declarations of [Decorator], [ReflectionHost] and [InputMapping]
    live in ngtsc, outside the embedded file.  Their shape is taken from
    how the transform uses them: a decorator's [identifier] is either an
    identifier or a qualified reference with an [expression]; the host
    answers [getDecoratorsOfDeclaration] with a list or nothing; a mapping
    has a [bindingPropertyName] and a [required] flag. *)

Inductive DecoratorIdentifier : Set :=
| PlainIdentifier (id : ts.Identifier)
| NamespacedIdentifier (expression : ts.Identifier) (name : ts.Identifier).

Record Import : Set := mkImport { importName : string; from : string }.

Record Decorator : Set := mkDecorator {
  name : string;
  identifier : DecoratorIdentifier;
  import : option Import;
  node : ts.Decorator;
  args : option (list ts.Expression)
}.

Record ReflectionHost : Type := mkReflectionHost {
  getDecoratorsOfDeclaration :
    ts.PropertyDeclaration -> Completion (option (list Decorator))
}.

(** Modelled from the spec: the [InputMapping] record of ngtsc's metadata
    package, with the attributes of the data model: the binding property
    name, the [required] flag and an optional transform reference. *)
Record InputMapping : Set := mkInputMapping {
  bindingPropertyName : string;
  required : bool;
  transform : option ts.Expression
}.

(** The [{name, value}] object the transform hands to the parser. *)
Record ClassMemberNameValue : Set := mkClassMemberNameValue {
  memberName : option string;
  value : option ts.Expression
}.

(** ** The import manager *)

Module ImportManager.

(** Modelled from the spec: the state of the [ImportManager] class of
    ngtsc's translator package, which is not part of the embedded file: the
    namespace import registered for each module specifier. *)
Record t : Type := mk { specifierToIdentifier : gmap string ts.Identifier }.

Definition empty : t := {| specifierToIdentifier := ∅ |}.

(** Modelled from the spec: the manager's [generateNamespaceImport], which
    registers or reuses a namespace import for a module.  The first request
    for a specifier registers it under a fresh alias; every later request
    gives the registered alias back and changes nothing. *)
Definition generateNamespaceImport (moduleName : string) (im : t)
  : ts.Identifier * t :=
  match specifierToIdentifier im !! moduleName with
  | Some id => (id, im)
  | None =>
      let id :=
        factory.createIdentifier
          ("i" +:+ pretty (size (specifierToIdentifier im))) in
      (id,
       {| specifierToIdentifier :=
            <[moduleName := id]> (specifierToIdentifier im) |})
  end.

(** The module specifiers a manager has registered. *)
Definition importedModules (im : t) : gset string :=
  dom (specifierToIdentifier im).

End ImportManager.

(** ** The transform *)

(** [xs?.some(p)]: an absent list gives [undefined], which the [if] takes
    as false. *)
Definition optionalSome {A} (xs : option (list A)) (p : A -> bool) : bool :=
  match xs with
  | Some l => existsb p l
  | None => false
  end.

(** [Object.entries] of an object literal whose keys are not array indices:
    the entries in the order the keys were written. *)
Definition Object_entries {A} (o : list (string * A)) : list (string * A) := o.

(** Lines 49-57. *)
Definition fields (inputMapping : InputMapping)
  : list (string * ts.Expression) :=
  [ ("isSignal", factory.createTrue);
    ("alias", factory.createStringLiteral (bindingPropertyName inputMapping));
    ("required",
      if required inputMapping then factory.createTrue
      else factory.createFalse);
    ("transform", ts.Ident (factory.createIdentifier "undefined")) ].

(** Lines 59-61: [ts.isIdentifier(decorator.identifier)] selects the first
    case. *)
Definition classDecoratorIdentifier (decorator : Decorator) : ts.Identifier :=
  match identifier decorator with
  | PlainIdentifier id => id
  | NamespacedIdentifier expression _ => expression
  end.

(** Lines 63-79, given the identifier the import manager answered. *)
Definition newDecorator (namespaceImport : ts.Identifier)
    (inputMapping : InputMapping) (decorator : Decorator) : ts.Decorator :=
  factory.createDecorator
    (factory.createCallExpression
       (factory.createPropertyAccessExpression
          (ts.Ident namespaceImport)
          (ts.setOriginalNode (factory.createIdentifier "Input")
             (classDecoratorIdentifier decorator)))
       None
       [factory.createAsExpression
          (factory.createObjectLiteralExpression
             (map (fun '(name, value) =>
                     factory.createPropertyAssignment name value)
                  (Object_entries (fields inputMapping))))
          (factory.createKeywordTypeNode ts.AnyKeyword)]).

(** Line 41: the object the parser is given, [member.name.text] and
    [member.initializer ?? null]. *)
Definition nameAndValue (member : ts.PropertyDeclaration)
  : ClassMemberNameValue :=
  {| memberName := ts.text (ts.name member);
     value := ts.initializer member |}.

(** ** Observations on the output *)

(** The identifier that names the decorator in [@ns.Name(...)]. *)
Definition decoratorName (d : ts.Decorator) : option ts.Identifier :=
  match ts.expression d with
  | ts.CallExpression (ts.PropertyAccessExpression _ n) _ _ => Some n
  | _ => None
  end.

(** The node an identifier is marked as originating from. *)
Definition provenance (d : ts.Decorator) : option ts.Identifier :=
  match decoratorName d with
  | Some n => ts.original n
  | None => None
  end.

(** ** Sample collaborators

    A small reflection host, identity test and parser to run the transform
    on concrete members.  The host reflects the decorator modifiers of a
    declaration and resolves every name to the core library; the parser
    recognizes [input(...)] and [input.required(...)], with a string
    literal argument as the alias. *)

Definition sampleIsAngularDecorator (d : Decorator) (n : string) (isCore : bool)
  : bool :=
  if isCore then String.eqb (name d) n
  else
    match import d with
    | Some i => String.eqb (from i) "@angular/core" && String.eqb (importName i) n
    | None => false
    end.

Definition sampleReflect (m : ts.ModifierLike) : option Decorator :=
  match m with
  | ts.DecoratorModifier d =>
      match ts.expression d with
      | ts.CallExpression (ts.Ident id) _ a =>
          Some {| name := ts.idText id;
                  identifier := PlainIdentifier id;
                  import := Some {| importName := ts.idText id;
                                    from := "@angular/core" |};
                  node := d;
                  args := Some a |}
      | ts.CallExpression (ts.PropertyAccessExpression (ts.Ident ns) n) _ a =>
          Some {| name := ts.idText n;
                  identifier := NamespacedIdentifier ns n;
                  import := Some {| importName := ts.idText n;
                                    from := "@angular/core" |};
                  node := d;
                  args := Some a |}
      | _ => None
      end
  | ts.Modifier _ => None
  end.

Definition sampleHost : ReflectionHost :=
  {| getDecoratorsOfDeclaration m :=
       match omap sampleReflect (default [] (ts.modifiers m)) with
       | [] => Normal None
       | ds => Normal (Some ds)
       end |}.

Definition sampleAlias (a : list ts.Expression) (fallback : string) : string :=
  match a with
  | ts.StringLiteral s :: _ => s
  | _ => fallback
  end.

Definition sampleTransformOption (a : list ts.Expression)
  : option ts.Expression :=
  match a with
  | [_; ts.ObjectLiteralExpression
          [ts.PropertyAssignment (ts.IdentifierName k) v]] =>
      if String.eqb (ts.idText k) "transform" then Some v else None
  | _ => None
  end.

Definition sampleParser (m : ClassMemberNameValue) (host : ReflectionHost)
    (isCore : bool) : Completion (option InputMapping) :=
  match memberName m, value m with
  | Some n, Some (ts.CallExpression (ts.Ident f) _ a) =>
      if String.eqb (ts.idText f) "input"
      then Normal (Some {| bindingPropertyName := sampleAlias a n;
                           required := false;
                           transform := sampleTransformOption a |})
      else Normal None
  | Some n,
    Some (ts.CallExpression
            (ts.PropertyAccessExpression (ts.Ident f) r) _ a) =>
      if String.eqb (ts.idText f) "input" && String.eqb (ts.idText r) "required"
      then Normal (Some {| bindingPropertyName := sampleAlias a n;
                           required := true;
                           transform := sampleTransformOption a |})
      else Normal None
  | _, _ => Normal None
  end.

(** The class decorator that triggers the transform, [@Component(...)]. *)
Definition sampleClassDecorator : Decorator :=
  let id := factory.createIdentifier "Component" in
  {| name := "Component";
     identifier := PlainIdentifier id;
     import := Some {| importName := "Component"; from := "@angular/core" |};
     node := factory.createDecorator (ts.CallExpression (ts.Ident id) None []);
     args := Some [] |}.

(** The same, written [@core.Component(...)]. *)
Definition sampleQualifiedClassDecorator : Decorator :=
  let ns := factory.createIdentifier "core" in
  let id := factory.createIdentifier "Component" in
  {| name := "Component";
     identifier := NamespacedIdentifier ns id;
     import := Some {| importName := "Component"; from := "@angular/core" |};
     node :=
       factory.createDecorator
         (ts.CallExpression
            (ts.PropertyAccessExpression (ts.Ident ns) id) None []);
     args := Some [] |}.

Definition call (f : string) (a : list ts.Expression) : ts.Expression :=
  ts.CallExpression (ts.Ident (factory.createIdentifier f)) None a.

(** [readonly name = input("Name")] *)
Definition memberName_ : ts.PropertyDeclaration :=
  {| ts.modifiers := Some [ts.Modifier ts.ReadonlyKeyword];
     ts.name := ts.IdentifierName (factory.createIdentifier "name");
     ts.questionToken := None;
     ts.exclamationToken := None;
     ts.type := None;
     ts.initializer := Some (call "input" [ts.StringLiteral "Name"]) |}.

(** [id = input.required()] *)
Definition memberId : ts.PropertyDeclaration :=
  {| ts.modifiers := None;
     ts.name := ts.IdentifierName (factory.createIdentifier "id");
     ts.questionToken := None;
     ts.exclamationToken := None;
     ts.type := None;
     ts.initializer :=
       Some (ts.CallExpression
               (ts.PropertyAccessExpression
                  (ts.Ident (factory.createIdentifier "input"))
                  (factory.createIdentifier "required"))
               None []) |}.

(** [foo = computeFoo()] *)
Definition memberFoo : ts.PropertyDeclaration :=
  {| ts.modifiers := None;
     ts.name := ts.IdentifierName (factory.createIdentifier "foo");
     ts.questionToken := None;
     ts.exclamationToken := None;
     ts.type := None;
     ts.initializer := Some (call "computeFoo" []) |}.

(** [@Input() bar = input()] *)
Definition memberDecorated : ts.PropertyDeclaration :=
  {| ts.modifiers :=
       Some [ts.DecoratorModifier (factory.createDecorator (call "Input" []))];
     ts.name := ts.IdentifierName (factory.createIdentifier "bar");
     ts.questionToken := None;
     ts.exclamationToken := None;
     ts.type := None;
     ts.initializer := Some (call "input" []) |}.


(** [upper = input.required("Upper", {transform: toUpper})] *)
Definition memberUpper : ts.PropertyDeclaration :=
  {| ts.modifiers := None;
     ts.name := ts.IdentifierName (factory.createIdentifier "upper");
     ts.questionToken := None;
     ts.exclamationToken := None;
     ts.type := None;
     ts.initializer :=
       Some (ts.CallExpression
               (ts.PropertyAccessExpression
                  (ts.Ident (factory.createIdentifier "input"))
                  (factory.createIdentifier "required"))
               None
               [ts.StringLiteral "Upper";
                ts.ObjectLiteralExpression
                  [ts.PropertyAssignment
                     (ts.IdentifierName (factory.createIdentifier "transform"))
                     (ts.Ident (factory.createIdentifier "toUpper"))]]) |}.

(** The import manager once the core library's namespace was requested. *)
Definition coreImported : ImportManager.t :=
  snd (ImportManager.generateNamespaceImport "@angular/core"
         ImportManager.empty).

(** [@i0.Input({isSignal: true, alias: "Name", required: false,
    transform: undefined} as any) readonly name = input("Name")], with the
    decorator's name marked as coming from [Component]. *)
Definition memberNameRewritten : ts.PropertyDeclaration :=
  {| ts.modifiers :=
       Some
         [ts.DecoratorModifier
            {| ts.expression :=
                 ts.CallExpression
                   (ts.PropertyAccessExpression
                      (ts.Ident (factory.createIdentifier "i0"))
                      {| ts.idText := "Input";
                         ts.original :=
                           Some (factory.createIdentifier "Component") |})
                   None
                   [ts.AsExpression
                      (ts.ObjectLiteralExpression
                         [factory.createPropertyAssignment "isSignal"
                            ts.TrueLiteral;
                          factory.createPropertyAssignment "alias"
                            (ts.StringLiteral "Name");
                          factory.createPropertyAssignment "required"
                            ts.FalseLiteral;
                          factory.createPropertyAssignment "transform"
                            (ts.Ident (factory.createIdentifier "undefined"))])
                      (ts.KeywordTypeNode ts.AnyKeyword)] |};
          ts.Modifier ts.ReadonlyKeyword];
     ts.name := ts.IdentifierName (factory.createIdentifier "name");
     ts.questionToken := None;
     ts.exclamationToken := None;
     ts.type := None;
     ts.initializer := Some (call "input" [ts.StringLiteral "Name"]) |}.

(** [@HostBinding() size = input()] *)
Definition memberHostBinding : ts.PropertyDeclaration :=
  {| ts.modifiers :=
       Some [ts.DecoratorModifier
               (factory.createDecorator (call "HostBinding" []))];
     ts.name := ts.IdentifierName (factory.createIdentifier "size");
     ts.questionToken := None;
     ts.exclamationToken := None;
     ts.type := None;
     ts.initializer := Some (call "input" []) |}.

(** A host that has no decorator list for any declaration, as one that
    only knows the decorators of the parsed source has none for a
    declaration the transform built. *)
Definition blindHost : ReflectionHost :=
  {| getDecoratorsOfDeclaration _ := Normal None |}.

(** A host whose reflection fails. *)
Definition failingHost : ReflectionHost :=
  {| getDecoratorsOfDeclaration _ := Throw "no reflection" |}.

(** A parser that reports a diagnostic by throwing. *)
Definition throwingParser (m : ClassMemberNameValue) (host : ReflectionHost)
    (isCore : bool) : Completion (option InputMapping) :=
  Throw "unsupported input call".

(** [@Component(...)] again, as a host reflects it that resolved no import
    and no arguments; the identifier is the same. *)
Definition sampleUnresolvedClassDecorator : Decorator :=
  let id := factory.createIdentifier "Component" in
  {| name := "Cmp";
     identifier := PlainIdentifier id;
     import := None;
     node := factory.createDecorator (ts.Ident id);
     args := None |}.

(** [name! = input("Name")]: a definite assignment assertion on a field
    with an initializer.  TypeScript parses it and reports it only when it
    checks the program. *)
Definition memberAsserted : ts.PropertyDeclaration :=
  {| ts.modifiers := None;
     ts.name := ts.IdentifierName (factory.createIdentifier "name");
     ts.questionToken := None;
     ts.exclamationToken := Some ts.ExclamationTokenNode;
     ts.type := None;
     ts.initializer := Some (call "input" [ts.StringLiteral "Name"]) |}.


(** * The transform and its properties *)

Section SignalInputs.

(** The two functions imported from [ngtsc/annotations]. *)
Variable isAngularDecorator : Decorator -> string -> bool -> bool.
Variable tryParseSignalInputMapping :
  ClassMemberNameValue -> ReflectionHost -> bool ->
  Completion (option InputMapping).

(** The import manager the caller passes in: its state and the one method
    the transform calls on it. *)
Variable ImportManagerT : Type.
Variable generateNamespaceImport :
  string -> ImportManagerT -> ts.Identifier * ImportManagerT.

(** The transform returns the declaration, or throws what a collaborator
    threw, together with the import manager as the call left it.  The
    [factory] argument is the module [factory] above. *)
Definition signalInputsTransform
    (member : ts.PropertyDeclaration)
    (host : ReflectionHost)
    (importManager : ImportManagerT)
    (decorator : Decorator)
    (isCore : bool)
  : Completion ts.PropertyDeclaration * ImportManagerT :=
  match getDecoratorsOfDeclaration host member with
  | Throw e => (Throw e, importManager)
  | Normal decorators =>
    if optionalSome decorators (fun d => isAngularDecorator d "Input" isCore)
    then (Normal member, importManager)
    else
      match tryParseSignalInputMapping (nameAndValue member) host isCore with
      | Throw e => (Throw e, importManager)
      | Normal None => (Normal member, importManager)
      | Normal (Some inputMapping) =>
        let '(namespaceImport, importManager') :=
          generateNamespaceImport "@angular/core" importManager in
        (Normal
           (factory.updatePropertyDeclaration
              member
              (Some (ts.DecoratorModifier
                       (newDecorator namespaceImport inputMapping decorator)
                     :: default [] (ts.modifiers member)))
              (ts.name member)
              (ts.Question <$> ts.questionToken member)
              (ts.type member)
              (ts.initializer member)),
         importManager')
      end
  end.

(** The host reports, on declaration [m], a decorator that reflects the
    node [nd] and that the identity test takes for [Input]. *)
Definition reportsAsInput (host : ReflectionHost) (isCore : bool)
    (m : ts.PropertyDeclaration) (nd : ts.Decorator) : Prop :=
  exists ds d,
    getDecoratorsOfDeclaration host m = Normal (Some ds) /\
    In d ds /\ node d = nd /\ isAngularDecorator d "Input" isCore = true.


(** The import manager states a file's rewrite pass can go through: any
    number of calls of the transform, on any members, one after the
    other on the same manager. *)
Inductive rewritePass : ImportManagerT -> ImportManagerT -> Prop :=
| pass_done im : rewritePass im im
| pass_call im member host decorator isCore im' :
    rewritePass
      (snd (signalInputsTransform member host im decorator isCore)) im' ->
    rewritePass im im'.

(** ** The four ways through the transform *)

Lemma transform_decorated member host im decorator isCore ds :
  getDecoratorsOfDeclaration host member = Normal ds ->
  optionalSome ds (fun d => isAngularDecorator d "Input" isCore) = true ->
  signalInputsTransform member host im decorator isCore = (Normal member, im).
Proof.
  intros Hds Hsome. unfold signalInputsTransform.
  rewrite Hds, Hsome. reflexivity.
Qed.

Lemma transform_no_match member host im decorator isCore ds :
  getDecoratorsOfDeclaration host member = Normal ds ->
  tryParseSignalInputMapping (nameAndValue member) host isCore = Normal None ->
  signalInputsTransform member host im decorator isCore = (Normal member, im).
Proof.
  intros Hds Hparse. unfold signalInputsTransform.
  rewrite Hds, Hparse. destruct (optionalSome _ _); reflexivity.
Qed.

Lemma transform_rewrite member host im decorator isCore ds mapping :
  getDecoratorsOfDeclaration host member = Normal ds ->
  optionalSome ds (fun d => isAngularDecorator d "Input" isCore) = false ->
  tryParseSignalInputMapping (nameAndValue member) host isCore = Normal (Some mapping) ->
  signalInputsTransform member host im decorator isCore =
    (Normal
       (factory.updatePropertyDeclaration member
          (Some (ts.DecoratorModifier
                   (newDecorator
                      (fst (generateNamespaceImport "@angular/core" im))
                      mapping decorator)
                 :: default [] (ts.modifiers member)))
          (ts.name member) (ts.Question <$> ts.questionToken member) (ts.type member)
          (ts.initializer member)),
     snd (generateNamespaceImport "@angular/core" im)).
Proof.
  intros Hds Hsome Hparse. unfold signalInputsTransform.
  rewrite Hds, Hsome, Hparse.
  destruct (generateNamespaceImport _ im) as [ns im']. reflexivity.
Qed.

(** An exception that leaves the transform was thrown by the host or by
    the parser. *)
Lemma transform_throw_origin member host im decorator isCore e im' :
  signalInputsTransform member host im decorator isCore = (Throw e, im') ->
  getDecoratorsOfDeclaration host member = Throw e \/
  tryParseSignalInputMapping (nameAndValue member) host isCore = Throw e.
Proof.
  unfold signalInputsTransform.
  destruct (getDecoratorsOfDeclaration host member) as [ds|e1].
  - destruct (optionalSome ds _); [discriminate|].
    destruct (tryParseSignalInputMapping (nameAndValue member) host isCore) as [[mapping|]|e2].
    + destruct (generateNamespaceImport _ im); discriminate.
    + discriminate.
    + intros [= <- _]. now right.
  - intros [= <- _]. now left.
Qed.

(** Whatever the call does, it leaves the import manager as it was, or as
    a request for the core library's namespace leaves it. *)
Lemma transform_import_manager member host im decorator isCore :
  let im' := snd (signalInputsTransform member host im decorator isCore) in
  im' = im \/ im' = snd (generateNamespaceImport "@angular/core" im).
Proof.
  unfold signalInputsTransform.
  destruct (getDecoratorsOfDeclaration host member) as [ds|e1]; [|now left].
  destruct (optionalSome ds _); [now left|].
  destruct (tryParseSignalInputMapping (nameAndValue member) host isCore) as [[mapping|]|e2];
    [|now left|now left].
  destruct (generateNamespaceImport _ im); now right.
Qed.

Lemma optionalSome_In (ds : list Decorator) d isCore :
  In d ds -> isAngularDecorator d "Input" isCore = true ->
  optionalSome (Some ds) (fun d => isAngularDecorator d "Input" isCore) = true.
Proof.
  intros Hin Hd. simpl. apply existsb_exists. exists d. auto.
Qed.

Lemma cons_neq_self {A} (x : A) (l : list A) : x :: l <> l.
Proof.
  intros H. apply (f_equal (@length A)) in H. simpl in H. lia.
Qed.

(** A rewritten declaration differs from the member it came from. *)
Lemma rewritten_neq member nd :
  factory.updatePropertyDeclaration member
    (Some (ts.DecoratorModifier nd :: default [] (ts.modifiers member)))
    (ts.name member) (ts.Question <$> ts.questionToken member) (ts.type member)
    (ts.initializer member) <> member.
Proof.
  intros H. apply (f_equal ts.modifiers) in H. simpl in H.
  destruct (ts.modifiers member) as [l|]; [|discriminate].
  injection H as H. apply (cons_neq_self _ _ H).
Qed.

Local Abbreviation rewritten member nd :=
  (factory.updatePropertyDeclaration member
     (Some (ts.DecoratorModifier nd :: default [] (ts.modifiers member)))
     (ts.name member) (ts.Question <$> ts.questionToken member) (ts.type member)
     (ts.initializer member)).
Local Abbreviation property key val :=
  (ts.PropertyAssignment
     (ts.IdentifierName {| ts.idText := key; ts.original := None |}) val).

(** ** The metadata record *)

(** C1. When the member is not yet decorated and the parser recognizes its
    initializer and yields a mapping, the decorator put in front of the
    member's modifiers is a call whose one argument is a cast of an object
    literal with exactly four property assignments, in the order
    [isSignal], [alias], [required], [transform]: [isSignal] is [true],
    [alias] is the string literal of the mapping's [bindingPropertyName],
    [required] is [true] or [false] as the mapping's flag, and [transform]
    is the identifier [undefined], whatever transform the mapping holds. *)
Theorem metadata_fields_fixed member host im decorator isCore ds mapping :
  getDecoratorsOfDeclaration host member = Normal ds ->
  optionalSome ds (fun d => isAngularDecorator d "Input" isCore) = false ->
  tryParseSignalInputMapping (nameAndValue member) host isCore = Normal (Some mapping) ->
  exists out im' callee,
    signalInputsTransform member host im decorator isCore = (Normal out, im') /\
    ts.modifiers out =
      Some (ts.DecoratorModifier
              {| ts.expression :=
                   ts.CallExpression callee None
                     [ts.AsExpression
                        (ts.ObjectLiteralExpression
                           [ property "isSignal" ts.TrueLiteral;
                             property "alias"
                               (ts.StringLiteral (bindingPropertyName mapping));
                             property "required"
                               (if required mapping then ts.TrueLiteral
                                else ts.FalseLiteral);
                             property "transform"
                               (ts.Ident {| ts.idText := "undefined";
                                            ts.original := None |}) ])
                        (ts.KeywordTypeNode ts.AnyKeyword)] |}
            :: default [] (ts.modifiers member)).
Proof.
  intros Hds Hsome Hparse.
  eexists _, _, _. split.
  - apply (transform_rewrite _ _ _ _ _ _ _ Hds Hsome Hparse).
  - reflexivity.
Qed.

(** ** Members the transform leaves alone *)

(** C2. When the parser answers that the initializer is absent or not a
    recognized input-factory call, the transform returns the member it was
    given, and the import manager is untouched. *)
Theorem unrecognized_initializer_unchanged member host im decorator isCore ds :
  getDecoratorsOfDeclaration host member = Normal ds ->
  tryParseSignalInputMapping (nameAndValue member) host isCore = Normal None ->
  signalInputsTransform member host im decorator isCore = (Normal member, im).
Proof.
  intros Hds Hparse. unfold signalInputsTransform. rewrite Hds.
  case (optionalSome ds _); [reflexivity|]. rewrite Hparse. reflexivity.
Qed.

(** C3. When one of the decorators the host reports on the member is the
    [Input] decorator under the [isCore] flag, the transform returns the
    member it was given, whatever its initializer is and whatever the
    parser would do with it. *)
Theorem already_decorated_unchanged member host im decorator isCore ds d :
  getDecoratorsOfDeclaration host member = Normal (Some ds) ->
  In d ds ->
  isAngularDecorator d "Input" isCore = true ->
  signalInputsTransform member host im decorator isCore = (Normal member, im).
Proof.
  intros Hds Hin Hd.
  apply transform_decorated with (ds := Some ds); [exact Hds|].
  eapply optionalSome_In; eassumption.
Qed.

(** Let a first application return [out].  If, whenever that application
    rewrote the member, the host reports on [out] the decorator now at the
    head of its modifiers and the identity test takes it for [Input], then
    a second application to [out], with the same collaborators, flag and
    import manager, returns [out] again and leaves the import manager as
    the first application left it. *)
Lemma transform_idempotent member host im decorator isCore out im' :
  signalInputsTransform member host im decorator isCore = (Normal out, im') ->
  (forall nd rest,
      out <> member ->
      ts.modifiers out = Some (ts.DecoratorModifier nd :: rest) ->
      reportsAsInput host isCore out nd) ->
  signalInputsTransform out host im' decorator isCore = (Normal out, im').
Proof.
  intros Hfirst Hhost.
  destruct (getDecoratorsOfDeclaration host member) as [ds|e] eqn:Hds.
  - destruct (optionalSome ds (fun d => isAngularDecorator d "Input" isCore)) eqn:Hsome.
    + rewrite (transform_decorated _ _ _ _ _ _ Hds Hsome) in Hfirst.
      injection Hfirst as <- <-.
      apply (transform_decorated _ _ _ _ _ _ Hds Hsome).
    + destruct (tryParseSignalInputMapping (nameAndValue member) host isCore) as [[mapping|]|e] eqn:Hparse.
      * rewrite (transform_rewrite _ _ _ _ _ _ _ Hds Hsome Hparse) in Hfirst.
        injection Hfirst as <- <-.
        destruct (Hhost _ _ (rewritten_neq _ _) eq_refl)
          as (ds' & d & Hds' & Hin & _ & Hd).
        apply transform_decorated with (ds := Some ds'); [exact Hds'|].
        eapply optionalSome_In; eassumption.
      * rewrite (transform_no_match _ _ _ _ _ _ Hds Hparse) in Hfirst.
        injection Hfirst as <- <-.
        apply (transform_no_match _ _ _ _ _ _ Hds Hparse).
      * unfold signalInputsTransform in Hfirst.
        rewrite Hds, Hsome, Hparse in Hfirst. discriminate.
  - unfold signalInputsTransform in Hfirst. rewrite Hds in Hfirst.
    discriminate.
Qed.


(** ** The rewritten declaration *)

(** C5, as the code has it.  When the member is rewritten, the modifiers
    of the output are the new decorator followed by the member's modifiers
    in their order (none when the member had no modifier list), and the
    name, the question token, the type annotation and the initializer are
    those of the member.  When the member has no exclamation token, the
    output is the member with its modifiers replaced: no other field is
    altered. *)
Theorem rewrite_prepends_and_preserves
    member host im decorator isCore ds mapping :
  getDecoratorsOfDeclaration host member = Normal ds ->
  optionalSome ds (fun d => isAngularDecorator d "Input" isCore) = false ->
  tryParseSignalInputMapping (nameAndValue member) host isCore = Normal (Some mapping) ->
  exists out im',
    signalInputsTransform member host im decorator isCore = (Normal out, im') /\
    ts.modifiers out =
      Some (ts.DecoratorModifier
              (newDecorator (fst (generateNamespaceImport "@angular/core" im))
                 mapping decorator)
            :: default [] (ts.modifiers member)) /\
    ts.name out = ts.name member /\
    ts.questionToken out = ts.questionToken member /\
    ts.type out = ts.type member /\
    ts.initializer out = ts.initializer member /\
    (ts.exclamationToken member = None ->
     out =
       {| ts.modifiers :=
            Some (ts.DecoratorModifier
                    (newDecorator
                       (fst (generateNamespaceImport "@angular/core" im))
                       mapping decorator)
                  :: default [] (ts.modifiers member));
          ts.name := ts.name member;
          ts.questionToken := ts.questionToken member;
          ts.exclamationToken := ts.exclamationToken member;
          ts.type := ts.type member;
          ts.initializer := ts.initializer member |}).
Proof.
  intros Hds Hsome Hparse.
  eexists _, _. split.
  - apply (transform_rewrite _ _ _ _ _ _ _ Hds Hsome Hparse).
  - unfold factory.updatePropertyDeclaration. simpl.
    destruct (ts.questionToken member) as [token|]; simpl;
      repeat split; intros ->; reflexivity.
Qed.


(** ** No exception of its own *)



(** C10. When the host answers the decorators query with no list at all,
    the presence check counts the member as not decorated and does not
    throw: the outcome of the transform is that of the parsing step and
    what follows it. *)
Theorem absent_decorator_list_proceeds member host im decorator isCore :
  getDecoratorsOfDeclaration host member = Normal None ->
  signalInputsTransform member host im decorator isCore =
    match tryParseSignalInputMapping (nameAndValue member) host isCore with
    | Throw e => (Throw e, im)
    | Normal None => (Normal member, im)
    | Normal (Some mapping) =>
        (Normal
           (rewritten member
              (newDecorator (fst (generateNamespaceImport "@angular/core" im))
                 mapping decorator)),
         snd (generateNamespaceImport "@angular/core" im))
    end.
Proof.
  intros Hds. unfold signalInputsTransform. rewrite Hds. simpl.
  destruct (tryParseSignalInputMapping (nameAndValue member) host isCore) as [[mapping|]|e]; try reflexivity.
  destruct (generateNamespaceImport _ im). reflexivity.
Qed.

(** What the parser throws on a member that is not yet decorated leaves the
    transform, with the import manager untouched. *)
Lemma transform_propagates_parser_throw member host im decorator isCore ds e :
  getDecoratorsOfDeclaration host member = Normal ds ->
  optionalSome ds (fun d => isAngularDecorator d "Input" isCore) = false ->
  tryParseSignalInputMapping (nameAndValue member) host isCore = Throw e ->
  signalInputsTransform member host im decorator isCore = (Throw e, im).
Proof.
  intros Hds Hsome Hparse. unfold signalInputsTransform.
  rewrite Hds, Hsome, Hparse. reflexivity.
Qed.

(** ** Further properties of the transform *)

Lemma optionalSome_false (ds : option (list Decorator)) isCore :
  optionalSome ds (fun d => isAngularDecorator d "Input" isCore) = false <->
  forall l d, ds = Some l -> In d l ->
              isAngularDecorator d "Input" isCore = false.
Proof.
  destruct ds as [l|]; simpl.
  - split.
    + intros Hex l' d [= <-] Hin.
      destruct (isAngularDecorator d "Input" isCore) eqn:Hd; [|reflexivity].
      rewrite <- Hex. symmetry. apply existsb_exists. eauto.
    + intros Hall. apply not_true_is_false. intros Hex.
      apply existsb_exists in Hex as (d & Hin & Hd).
      rewrite (Hall l d eq_refl Hin) in Hd. discriminate.
  - split; [intros _ l d [=]|reflexivity].
Qed.

(** An exception [e] leaves the transform exactly when the host throws
    [e], or the host answers, the member is not yet decorated and the
    parser throws [e]; the import manager is then as it was. *)
Theorem throws_exactly_when_collaborator_throws
    member host im decorator isCore e im' :
  signalInputsTransform member host im decorator isCore = (Throw e, im') <->
  im' = im /\
  (getDecoratorsOfDeclaration host member = Throw e \/
   exists ds,
     getDecoratorsOfDeclaration host member = Normal ds /\
     optionalSome ds (fun d => isAngularDecorator d "Input" isCore) = false /\
     tryParseSignalInputMapping (nameAndValue member) host isCore = Throw e).
Proof.
  unfold signalInputsTransform.
  destruct (getDecoratorsOfDeclaration host member) as [ds|e1].
  - destruct (optionalSome ds _) eqn:Hsome.
    + split; [discriminate|].
      intros [_ [H|(ds' & [= <-] & H & _)]]; [discriminate|].
      rewrite Hsome in H. discriminate.
    + destruct (tryParseSignalInputMapping (nameAndValue member) host isCore)
        as [[mapping|]|e2].
      * destruct (generateNamespaceImport _ im).
        split; [discriminate|].
        intros [_ [H|(ds' & _ & _ & H)]]; discriminate.
      * split; [discriminate|].
        intros [_ [H|(ds' & _ & _ & H)]]; discriminate.
      * split.
        -- intros [= <- <-]. split; [reflexivity|]. right. eauto.
        -- intros [-> [H|(ds' & _ & _ & [= <-])]]; [discriminate|reflexivity].
  - split.
    + intros [= <- <-]. split; [reflexivity|]. now left.
    + intros [-> [[= <-]|(ds' & H & _)]]; [reflexivity|discriminate].
Qed.

(** The import manager is asked for nothing unless the member is rewritten:
    when the transform gives the member back or throws, the manager is as
    it was. *)
Theorem import_manager_untouched_unless_rewritten
    member host im decorator isCore r im' :
  signalInputsTransform member host im decorator isCore = (r, im') ->
  r = Normal member \/ (exists e, r = Throw e) ->
  im' = im.
Proof.
  unfold signalInputsTransform.
  destruct (getDecoratorsOfDeclaration host member) as [ds|e1];
    [|intros [= <- <-]; reflexivity].
  destruct (optionalSome ds _); [intros [= <- <-]; reflexivity|].
  destruct (tryParseSignalInputMapping (nameAndValue member) host isCore)
    as [[mapping|]|e2]; try (intros [= <- <-]; reflexivity).
  destruct (generateNamespaceImport _ im) as [ns im1].
  intros [= <- <-] [Hr|[e Hr]]; [|discriminate].
  injection Hr as Hr. destruct (rewritten_neq _ _ Hr).
Qed.

(** The transform changes a member only for a parsed input: when the
    returned declaration is not the member, the host answered, no reported
    decorator was [Input], the parser yielded a mapping, and the output is
    the member with the decorator built from that mapping in front. *)
Theorem changed_only_for_parsed_input
    member host im decorator isCore out im' :
  signalInputsTransform member host im decorator isCore = (Normal out, im') ->
  out <> member ->
  exists ds mapping,
    getDecoratorsOfDeclaration host member = Normal ds /\
    optionalSome ds (fun d => isAngularDecorator d "Input" isCore) = false /\
    tryParseSignalInputMapping (nameAndValue member) host isCore
    = Normal (Some mapping) /\
    out =
      rewritten member
        (newDecorator (fst (generateNamespaceImport "@angular/core" im))
           mapping decorator) /\
    im' = snd (generateNamespaceImport "@angular/core" im).
Proof.
  unfold signalInputsTransform.
  destruct (getDecoratorsOfDeclaration host member) as [ds|e1]; [|discriminate].
  destruct (optionalSome ds _) eqn:Hsome.
  { intros [= <- <-] Hne. now destruct Hne. }
  destruct (tryParseSignalInputMapping (nameAndValue member) host isCore)
    as [[mapping|]|e2] eqn:Hparse.
  - destruct (generateNamespaceImport _ im) as [ns im1].
    intros [= <- <-] _. exists ds, mapping. auto.
  - intros [= <- <-] Hne. now destruct Hne.
  - discriminate.
Qed.

(** On every path the output keeps the member's name, question token,
    type and initializer, hence what the parser is shown, and its
    modifiers are the member's with at most one node in front. *)
Theorem output_keeps_member member host im decorator isCore out im' :
  signalInputsTransform member host im decorator isCore = (Normal out, im') ->
  ts.name out = ts.name member /\
  ts.questionToken out = ts.questionToken member /\
  ts.type out = ts.type member /\
  ts.initializer out = ts.initializer member /\
  nameAndValue out = nameAndValue member /\
  exists added,
    default [] (ts.modifiers out)
    = (added ++ default [] (ts.modifiers member))%list /\
    length added <= 1.
Proof.
  assert (Hsame :
    ts.name member = ts.name member /\
    ts.questionToken member = ts.questionToken member /\
    ts.type member = ts.type member /\
    ts.initializer member = ts.initializer member /\
    nameAndValue member = nameAndValue member /\
    exists added,
      default [] (ts.modifiers member)
      = (added ++ default [] (ts.modifiers member))%list /\
      length added <= 1).
  { repeat split. exists []. split; [reflexivity|simpl; lia]. }
  unfold signalInputsTransform.
  destruct (getDecoratorsOfDeclaration host member) as [ds|e1]; [|discriminate].
  destruct (optionalSome ds _); [intros [= <- <-]; exact Hsame|].
  destruct (tryParseSignalInputMapping (nameAndValue member) host isCore)
    as [[mapping|]|e2]; [|intros [= <- <-]; exact Hsame|discriminate].
  destruct (generateNamespaceImport _ im) as [ns im1].
  intros [= <- <-]. simpl.
  split; [reflexivity|]. split; [now destruct (ts.questionToken member)|].
  repeat split.
  eexists [_]. split; [reflexivity|simpl; lia].
Qed.

(** The presence check looks at what the host reports, not at the member's
    own modifiers.  If the host reports no [Input] decorator on a rewritten
    member either, a second application parses the same name and
    initializer and puts a second decorator in front of the first. *)
Theorem unreported_decorator_added_again
    member host im decorator isCore ds mapping ds' :
  let nd1 :=
    newDecorator (fst (generateNamespaceImport "@angular/core" im))
      mapping decorator in
  let im1 := snd (generateNamespaceImport "@angular/core" im) in
  let nd2 :=
    newDecorator (fst (generateNamespaceImport "@angular/core" im1))
      mapping decorator in
  getDecoratorsOfDeclaration host member = Normal ds ->
  optionalSome ds (fun d => isAngularDecorator d "Input" isCore) = false ->
  tryParseSignalInputMapping (nameAndValue member) host isCore
  = Normal (Some mapping) ->
  getDecoratorsOfDeclaration host (rewritten member nd1) = Normal ds' ->
  optionalSome ds' (fun d => isAngularDecorator d "Input" isCore) = false ->
  signalInputsTransform member host im decorator isCore
  = (Normal (rewritten member nd1), im1) /\
  signalInputsTransform (rewritten member nd1) host im1 decorator isCore
  = (Normal
       (factory.updatePropertyDeclaration member
          (Some (ts.DecoratorModifier nd2 :: ts.DecoratorModifier nd1
                 :: default [] (ts.modifiers member)))
          (ts.name member) (ts.Question <$> ts.questionToken member) (ts.type member)
          (ts.initializer member)),
     snd (generateNamespaceImport "@angular/core" im1)).
Proof.
  intros nd1 im1 nd2 Hds Hsome Hparse Hds' Hsome'. split.
  - apply (transform_rewrite _ _ _ _ _ _ _ Hds Hsome Hparse).
  - etransitivity.
    + apply (transform_rewrite _ _ _ _ _ _ mapping Hds' Hsome'). exact Hparse.
    + unfold factory.updatePropertyDeclaration. simpl.
      destruct (ts.questionToken member); reflexivity.
Qed.

(** Decorators other than [Input] do not hold the rewrite back: when none
    of the reported decorators is [Input], the outcome is that of the
    parsing step and what follows it, and a new decorator goes in front of
    the ones the member has. *)
Theorem other_decorators_do_not_block member host im decorator isCore l :
  getDecoratorsOfDeclaration host member = Normal (Some l) ->
  (forall d, In d l -> isAngularDecorator d "Input" isCore = false) ->
  signalInputsTransform member host im decorator isCore =
    match tryParseSignalInputMapping (nameAndValue member) host isCore with
    | Throw e => (Throw e, im)
    | Normal None => (Normal member, im)
    | Normal (Some mapping) =>
        (Normal
           (rewritten member
              (newDecorator (fst (generateNamespaceImport "@angular/core" im))
                 mapping decorator)),
         snd (generateNamespaceImport "@angular/core" im))
    end.
Proof.
  intros Hds Hall.
  assert (Hsome : optionalSome (Some l)
                    (fun d => isAngularDecorator d "Input" isCore) = false).
  { apply optionalSome_false. intros l' d [= <-]. apply Hall. }
  unfold signalInputsTransform. rewrite Hds, Hsome.
  destruct (tryParseSignalInputMapping (nameAndValue member) host isCore)
    as [[mapping|]|e]; try reflexivity.
  destruct (generateNamespaceImport _ im). reflexivity.
Qed.

(** Of the triggering decorator the transform reads the identifier it takes
    the provenance from, and nothing else: two decorators that agree on it
    give the same outcome. *)
Theorem only_identifier_of_trigger_is_read
    member host im decorator1 decorator2 isCore :
  classDecoratorIdentifier decorator1 = classDecoratorIdentifier decorator2 ->
  signalInputsTransform member host im decorator1 isCore
  = signalInputsTransform member host im decorator2 isCore.
Proof.
  intros Hid. unfold signalInputsTransform, newDecorator.
  rewrite Hid. reflexivity.
Qed.

End SignalInputs.

(** ** Where the provenance comes from *)

(** C9. For a triggering decorator written as a qualified reference, the
    identifier that names the new decorator is marked as originating from
    the expression part of that reference; for one written as a plain
    identifier, from that identifier. *)
Theorem provenance_source ns mapping n i nd a e q id :
  let qualified :=
    {| name := n; identifier := NamespacedIdentifier e q; import := i;
       node := nd; args := a |} in
  let plain :=
    {| name := n; identifier := PlainIdentifier id; import := i;
       node := nd; args := a |} in
  classDecoratorIdentifier qualified = e /\
  provenance (newDecorator ns mapping qualified) = Some e /\
  classDecoratorIdentifier plain = id /\
  provenance (newDecorator ns mapping plain) = Some id.
Proof. repeat split. Qed.

(** Two mappings give the same decorator exactly when they agree on the
    binding property name and on the [required] flag: the decorator tells
    both, and nothing of the transform. *)
Theorem decorator_tells_alias_and_required ns m1 m2 d :
  newDecorator ns m1 d = newDecorator ns m2 d <->
  bindingPropertyName m1 = bindingPropertyName m2 /\
  required m1 = required m2.
Proof.
  unfold newDecorator, fields, Object_entries. simpl. split.
  - intros H. injection H as Halias Hrequired. split; [exact Halias|].
    destruct (required m1), (required m2);
      (reflexivity || discriminate Hrequired).
  - intros [-> ->]. reflexivity.
Qed.

(** ** The decorator call and the namespace import *)

Section ImportsPerFile.

Variable isAngularDecorator : Decorator -> string -> bool -> bool.
Variable tryParseSignalInputMapping :
  ClassMemberNameValue -> ReflectionHost -> bool ->
  Completion (option InputMapping).

Lemma generateNamespaceImport_modules moduleName im :
  ImportManager.importedModules
    (snd (ImportManager.generateNamespaceImport moduleName im)) =
  ImportManager.importedModules im ∪ {[moduleName]}.
Proof.
  unfold ImportManager.generateNamespaceImport, ImportManager.importedModules.
  destruct (ImportManager.specifierToIdentifier im !! moduleName) as [id|]
    eqn:Hlookup; simpl.
  - assert (moduleName ∈ dom (ImportManager.specifierToIdentifier im))
      by (apply elem_of_dom; eauto).
    set_solver.
  - rewrite dom_insert_L. set_solver.
Qed.

(** A second request for a module gives the alias of the first and
    registers nothing. *)
Lemma generateNamespaceImport_again moduleName im :
  let r := ImportManager.generateNamespaceImport moduleName im in
  ImportManager.generateNamespaceImport moduleName (snd r) = r.
Proof.
  unfold ImportManager.generateNamespaceImport.
  destruct (ImportManager.specifierToIdentifier im !! moduleName) as [id|]
    eqn:Hlookup; simpl.
  - rewrite Hlookup. reflexivity.
  - rewrite lookup_insert_eq. reflexivity.
Qed.

Lemma pass_modules im im' :
  rewritePass isAngularDecorator tryParseSignalInputMapping
    ImportManager.t ImportManager.generateNamespaceImport im im' ->
  ImportManager.importedModules im' ⊆
  ImportManager.importedModules im ∪ {["@angular/core"]}.
Proof.
  induction 1 as [im|im member host decorator isCore im' _ IH].
  - set_solver.
  - destruct (transform_import_manager isAngularDecorator
                tryParseSignalInputMapping _
                ImportManager.generateNamespaceImport
                member host im decorator isCore) as [Heq|Heq];
      rewrite Heq in IH.
    + exact IH.
    + rewrite generateNamespaceImport_modules in IH. set_solver.
Qed.

(** C6. When the member is rewritten, the new decorator wraps the call
    [ns.Input(literal as any)]: [ns] is the identifier the import manager
    answers for the module [@angular/core], the name reads [Input], there
    are no type arguments, and the one argument is the object literal of
    the four fields cast to the [any] keyword type.  The manager is left
    as that one request leaves it; so over any number of calls of the
    transform on one manager, the specifiers registered on the way are
    none but [@angular/core]: at most one. *)
Theorem decorator_call_shape member host im decorator isCore ds mapping :
  getDecoratorsOfDeclaration host member = Normal ds ->
  optionalSome ds (fun d => isAngularDecorator d "Input" isCore) = false ->
  tryParseSignalInputMapping (nameAndValue member) host isCore
  = Normal (Some mapping) ->
  exists out im' ns nd inputName,
    signalInputsTransform isAngularDecorator tryParseSignalInputMapping
      ImportManager.t ImportManager.generateNamespaceImport
      member host im decorator isCore
    = (Normal out, im') /\
    ImportManager.generateNamespaceImport "@angular/core" im = (ns, im') /\
    ts.modifiers out =
      Some (ts.DecoratorModifier nd :: default [] (ts.modifiers member)) /\
    ts.expression nd =
      ts.CallExpression
        (ts.PropertyAccessExpression (ts.Ident ns) inputName)
        None
        [ts.AsExpression
           (ts.ObjectLiteralExpression
              (map (fun '(key, val) => factory.createPropertyAssignment key val)
                 (fields mapping)))
           (ts.KeywordTypeNode ts.AnyKeyword)] /\
    ts.idText inputName = "Input" /\
    length (fields mapping) = 4 /\
    forall im0 im1,
      rewritePass isAngularDecorator tryParseSignalInputMapping
        ImportManager.t ImportManager.generateNamespaceImport im0 im1 ->
      ImportManager.importedModules im1 ∖ ImportManager.importedModules im0
        ⊆ {["@angular/core"]} /\
      size (ImportManager.importedModules im1
              ∖ ImportManager.importedModules im0) <= 1.
Proof.
  intros Hds Hsome Hparse.
  eexists _, _, _, _, _. split; [|split; [|split; [|split; [|split; [|split]]]]].
  - apply (transform_rewrite _ _ _ _ _ _ _ _ _ _ _ Hds Hsome Hparse).
  - apply surjective_pairing.
  - reflexivity.
  - reflexivity.
  - reflexivity.
  - reflexivity.
  - intros im0 im1 Hpass. apply pass_modules in Hpass.
    assert (Hsub : ImportManager.importedModules im1
                     ∖ ImportManager.importedModules im0
                   ⊆ {["@angular/core"]}) by set_solver.
    split; [exact Hsub|].
    apply subseteq_size in Hsub. rewrite size_singleton in Hsub. exact Hsub.
Qed.

End ImportsPerFile.

(** * The transform at work *)

Local Abbreviation run :=
  (signalInputsTransform sampleIsAngularDecorator sampleParser
     ImportManager.t ImportManager.generateNamespaceImport).
Local Abbreviation property key val :=
  (ts.PropertyAssignment
     (ts.IdentifierName {| ts.idText := key; ts.original := None |}) val).

(** [name = input("Name")] outside the core library. *)
Example scenario_name :
  run memberName_ sampleHost ImportManager.empty sampleClassDecorator false
  = (Normal memberNameRewritten, coreImported).
Proof. vm_compute. reflexivity. Qed.

(** [foo = computeFoo()] is left as it is. *)
Example scenario_foo :
  run memberFoo sampleHost ImportManager.empty sampleClassDecorator false
  = (Normal memberFoo, ImportManager.empty).
Proof. vm_compute. reflexivity. Qed.

(** The metadata of [upper = input.required("Upper", {transform: toUpper})]:
    the transform option does not reach the decorator. *)
Lemma metadata_fields_fixed_witness :
  exists out im' callee,
    run memberUpper sampleHost ImportManager.empty sampleClassDecorator false
    = (Normal out, im') /\
    ts.modifiers out =
      Some [ts.DecoratorModifier
              {| ts.expression :=
                   ts.CallExpression callee None
                     [ts.AsExpression
                        (ts.ObjectLiteralExpression
                           [ property "isSignal" ts.TrueLiteral;
                             property "alias" (ts.StringLiteral "Upper");
                             property "required" ts.TrueLiteral;
                             property "transform"
                               (ts.Ident {| ts.idText := "undefined";
                                            ts.original := None |}) ])
                        (ts.KeywordTypeNode ts.AnyKeyword)] |}].
Proof.
  exact (metadata_fields_fixed sampleIsAngularDecorator sampleParser
           ImportManager.t ImportManager.generateNamespaceImport
           memberUpper sampleHost ImportManager.empty sampleClassDecorator
           false None
           {| bindingPropertyName := "Upper";
              required := true;
              transform :=
                Some (ts.Ident (factory.createIdentifier "toUpper")) |}
           eq_refl eq_refl eq_refl).
Defined.

(** [foo = computeFoo()] comes back as it went in. *)
Lemma unrecognized_initializer_unchanged_witness :
  run memberFoo sampleHost ImportManager.empty sampleClassDecorator false
  = (Normal memberFoo, ImportManager.empty).
Proof.
  apply (unrecognized_initializer_unchanged sampleIsAngularDecorator
           sampleParser ImportManager.t ImportManager.generateNamespaceImport
           memberFoo sampleHost ImportManager.empty sampleClassDecorator
           false None); reflexivity.
Defined.

(** [@Input() bar = input()] inside the core library is left alone. *)
Lemma already_decorated_unchanged_witness :
  run memberDecorated sampleHost ImportManager.empty sampleClassDecorator true
  = (Normal memberDecorated, ImportManager.empty).
Proof.
  eapply (already_decorated_unchanged sampleIsAngularDecorator sampleParser
            ImportManager.t ImportManager.generateNamespaceImport
            memberDecorated sampleHost ImportManager.empty
            sampleClassDecorator true).
  - reflexivity.
  - left. reflexivity.
  - reflexivity.
Defined.

(** A second run on the rewritten [name] member: the sample host reflects
    [@i0.Input(...)] and the member comes back unchanged. *)
Lemma transform_idempotent_witness :
  run memberNameRewritten sampleHost coreImported sampleClassDecorator false
  = (Normal memberNameRewritten, coreImported).
Proof.
  apply (transform_idempotent sampleIsAngularDecorator sampleParser
           ImportManager.t ImportManager.generateNamespaceImport
           memberName_ sampleHost ImportManager.empty sampleClassDecorator
           false memberNameRewritten coreImported).
  - vm_compute. reflexivity.
  - intros nd rest _ Hmods. injection Hmods as <- _.
    eexists _, _. split; [reflexivity|].
    split; [left; reflexivity|]. split; reflexivity.
Defined.

(** [readonly name = input("Name")]: the decorator goes in front of
    [readonly]. *)
Lemma rewrite_prepends_and_preserves_witness :
  exists out im',
    run memberName_ sampleHost ImportManager.empty sampleClassDecorator false
    = (Normal out, im') /\
    ts.modifiers out = ts.modifiers memberNameRewritten /\
    ts.name out = ts.name memberName_ /\
    ts.questionToken out = ts.questionToken memberName_ /\
    ts.type out = ts.type memberName_ /\
    ts.initializer out = ts.initializer memberName_ /\
    (ts.exclamationToken memberName_ = None -> out = memberNameRewritten).
Proof.
  exact (rewrite_prepends_and_preserves sampleIsAngularDecorator sampleParser
           ImportManager.t ImportManager.generateNamespaceImport
           memberName_ sampleHost ImportManager.empty sampleClassDecorator
           false None
           {| bindingPropertyName := "Name"; required := false;
              transform := None |}
           eq_refl eq_refl eq_refl).
Defined.

(** The call built for [id = input.required()] on a fresh import manager. *)
Lemma decorator_call_shape_witness :
  exists out im' ns nd inputName,
    run memberId sampleHost ImportManager.empty sampleQualifiedClassDecorator
      false
    = (Normal out, im') /\
    ImportManager.generateNamespaceImport "@angular/core" ImportManager.empty
    = (ns, im') /\
    ts.modifiers out = Some [ts.DecoratorModifier nd] /\
    ts.expression nd =
      ts.CallExpression
        (ts.PropertyAccessExpression (ts.Ident ns) inputName)
        None
        [ts.AsExpression
           (ts.ObjectLiteralExpression
              [ property "isSignal" ts.TrueLiteral;
                property "alias" (ts.StringLiteral "id");
                property "required" ts.TrueLiteral;
                property "transform"
                  (ts.Ident {| ts.idText := "undefined";
                               ts.original := None |}) ])
           (ts.KeywordTypeNode ts.AnyKeyword)] /\
    ts.idText inputName = "Input" /\
    length (fields {| bindingPropertyName := "id"; required := true;
                      transform := None |}) = 4 /\
    forall im0 im1,
      rewritePass sampleIsAngularDecorator sampleParser ImportManager.t
        ImportManager.generateNamespaceImport im0 im1 ->
      ImportManager.importedModules im1 ∖ ImportManager.importedModules im0
        ⊆ {["@angular/core"]} /\
      size (ImportManager.importedModules im1
              ∖ ImportManager.importedModules im0) <= 1.
Proof.
  exact (decorator_call_shape sampleIsAngularDecorator sampleParser
           memberId sampleHost ImportManager.empty
           sampleQualifiedClassDecorator false None
           {| bindingPropertyName := "id"; required := true;
              transform := None |}
           eq_refl eq_refl eq_refl).
Defined.



(** The sample host has no decorator list for [id = input.required()]; the
    member is parsed and rewritten. *)
Lemma absent_decorator_list_proceeds_witness :
  getDecoratorsOfDeclaration sampleHost memberId = Normal None /\
  run memberId sampleHost ImportManager.empty sampleClassDecorator false
  = (Normal
       (factory.updatePropertyDeclaration memberId
          (Some [ts.DecoratorModifier
                   (newDecorator (factory.createIdentifier "i0")
                      {| bindingPropertyName := "id"; required := true;
                         transform := None |}
                      sampleClassDecorator)])
          (ts.name memberId) (ts.Question <$> ts.questionToken memberId) (ts.type memberId)
          (ts.initializer memberId)),
     coreImported).
Proof.
  split; [reflexivity|].
  etransitivity.
  - apply (absent_decorator_list_proceeds sampleIsAngularDecorator
             sampleParser ImportManager.t
             ImportManager.generateNamespaceImport
             memberId sampleHost ImportManager.empty sampleClassDecorator
             false).
    reflexivity.
  - reflexivity.
Defined.

(** * Further runs *)

(** A diagnostic thrown by the parser leaves the transform and registers no
    import. *)
Example scenario_parser_throws :
  signalInputsTransform sampleIsAngularDecorator throwingParser
    ImportManager.t ImportManager.generateNamespaceImport
    memberName_ sampleHost ImportManager.empty sampleClassDecorator false
  = (Throw "unsupported input call", ImportManager.empty).
Proof. vm_compute. reflexivity. Qed.

(** [foo = computeFoo()] goes through without a request to the manager. *)
Lemma import_manager_untouched_unless_rewritten_witness :
  snd (run memberFoo sampleHost coreImported sampleClassDecorator false)
  = coreImported.
Proof.
  apply (import_manager_untouched_unless_rewritten sampleIsAngularDecorator
           sampleParser ImportManager.t ImportManager.generateNamespaceImport
           memberFoo sampleHost coreImported sampleClassDecorator false
           (fst (run memberFoo sampleHost coreImported sampleClassDecorator
                   false))).
  - apply surjective_pairing.
  - left. reflexivity.
Defined.

(** The rewritten [name] member is traced back to its mapping. *)
Lemma changed_only_for_parsed_input_witness :
  exists ds mapping,
    getDecoratorsOfDeclaration sampleHost memberName_ = Normal ds /\
    optionalSome ds (fun d => sampleIsAngularDecorator d "Input" false)
    = false /\
    sampleParser (nameAndValue memberName_) sampleHost false
    = Normal (Some mapping) /\
    memberNameRewritten =
      factory.updatePropertyDeclaration memberName_
        (Some (ts.DecoratorModifier
                 (newDecorator
                    (fst (ImportManager.generateNamespaceImport
                            "@angular/core" ImportManager.empty))
                    mapping sampleClassDecorator)
               :: default [] (ts.modifiers memberName_)))
        (ts.name memberName_) (ts.Question <$> ts.questionToken memberName_)
        (ts.type memberName_) (ts.initializer memberName_) /\
    coreImported =
      snd (ImportManager.generateNamespaceImport "@angular/core"
             ImportManager.empty).
Proof.
  apply (changed_only_for_parsed_input sampleIsAngularDecorator sampleParser
           ImportManager.t ImportManager.generateNamespaceImport
           memberName_ sampleHost ImportManager.empty sampleClassDecorator
           false memberNameRewritten coreImported).
  - vm_compute. reflexivity.
  - intros H. apply (f_equal ts.modifiers) in H. discriminate H.
Defined.

(** What the rewritten [name] member keeps. *)
Lemma output_keeps_member_witness :
  ts.name memberNameRewritten = ts.name memberName_ /\
  ts.questionToken memberNameRewritten = ts.questionToken memberName_ /\
  ts.type memberNameRewritten = ts.type memberName_ /\
  ts.initializer memberNameRewritten = ts.initializer memberName_ /\
  nameAndValue memberNameRewritten = nameAndValue memberName_ /\
  exists added,
    default [] (ts.modifiers memberNameRewritten)
    = (added ++ default [] (ts.modifiers memberName_))%list /\
    length added <= 1.
Proof.
  apply (output_keeps_member sampleIsAngularDecorator sampleParser
           ImportManager.t ImportManager.generateNamespaceImport
           memberName_ sampleHost ImportManager.empty sampleClassDecorator
           false memberNameRewritten coreImported).
  vm_compute. reflexivity.
Defined.

(** With a host that sees no decorators at all, two runs leave
    [name = input("Name")] with two [Input] decorators. *)
Lemma unreported_decorator_added_again_witness :
  signalInputsTransform sampleIsAngularDecorator sampleParser
    ImportManager.t ImportManager.generateNamespaceImport
    memberName_ blindHost ImportManager.empty sampleClassDecorator false
  = (Normal memberNameRewritten, coreImported) /\
  signalInputsTransform sampleIsAngularDecorator sampleParser
    ImportManager.t ImportManager.generateNamespaceImport
    memberNameRewritten blindHost coreImported sampleClassDecorator false
  = (Normal
       {| ts.modifiers :=
            match ts.modifiers memberNameRewritten with
            | Some (d :: rest) => Some (d :: d :: rest)
            | other => other
            end;
          ts.name := ts.name memberName_;
          ts.questionToken := None;
          ts.exclamationToken := None;
          ts.type := None;
          ts.initializer := ts.initializer memberName_ |},
     coreImported).
Proof.
  exact (unreported_decorator_added_again sampleIsAngularDecorator
           sampleParser ImportManager.t ImportManager.generateNamespaceImport
           memberName_ blindHost ImportManager.empty sampleClassDecorator
           false None
           {| bindingPropertyName := "Name"; required := false;
              transform := None |}
           None eq_refl eq_refl eq_refl eq_refl eq_refl).
Defined.

(** [@HostBinding() size = input()] is rewritten, [Input] in front. *)
Lemma other_decorators_do_not_block_witness :
  run memberHostBinding sampleHost ImportManager.empty sampleClassDecorator
    false
  = (Normal
       (factory.updatePropertyDeclaration memberHostBinding
          (Some [ts.DecoratorModifier
                   (newDecorator (factory.createIdentifier "i0")
                      {| bindingPropertyName := "size"; required := false;
                         transform := None |}
                      sampleClassDecorator);
                 ts.DecoratorModifier
                   (factory.createDecorator (call "HostBinding" []))])
          (ts.name memberHostBinding) None None
          (ts.initializer memberHostBinding)),
     coreImported).
Proof.
  etransitivity.
  - eapply (other_decorators_do_not_block sampleIsAngularDecorator
              sampleParser ImportManager.t
              ImportManager.generateNamespaceImport
              memberHostBinding sampleHost ImportManager.empty
              sampleClassDecorator false).
    + reflexivity.
    + intros d [<-|[]]. reflexivity.
  - reflexivity.
Defined.

(** The trigger's name, import, node and arguments make no difference. *)
Lemma only_identifier_of_trigger_is_read_witness :
  run memberName_ sampleHost ImportManager.empty sampleClassDecorator false
  = run memberName_ sampleHost ImportManager.empty
      sampleUnresolvedClassDecorator false.
Proof.
  apply (only_identifier_of_trigger_is_read sampleIsAngularDecorator
           sampleParser ImportManager.t ImportManager.generateNamespaceImport
           memberName_ sampleHost ImportManager.empty sampleClassDecorator
           sampleUnresolvedClassDecorator false).
  reflexivity.
Defined.

(** * Where the specification says more than the code does *)


(** [name! = input("Name")] is rewritten and loses its exclamation token: a
    field other than the modifiers has changed. *)
Lemma rewrite_drops_exclamation_token :
  exists out im',
    run memberAsserted sampleHost ImportManager.empty sampleClassDecorator
      false
    = (Normal out, im') /\
    ts.exclamationToken memberAsserted = Some ts.ExclamationTokenNode /\
    ts.exclamationToken out = None /\
    ts.exclamationToken out <> ts.exclamationToken memberAsserted.
Proof.
  eexists _, _. split; [reflexivity|]. repeat split. discriminate.
Qed.


